(** * Brax: evolution-strategy policy inference and the positional pipeline

    A shallow embedding of
      - [brax/training/agents/es/networks.py] (policy inference of the
        evolution-strategy agent), and
      - [brax/positional/pipeline_test.py] (the test harness of the
        position-based dynamics pipeline),
    together with the properties of them that are established here.

    Arrays of floats are lists of rationals: every finite float is a
    rational number, and the tests only compare and subtract them.
    The tolerances and bounds of the assertions are rounded as jax
    and numpy round them.  NaN and the infinities have no
    counterpart; an array that holds one fails each of the assertions
    modelled below. *)

From Stdlib Require Import QArith Qabs.
From stdpp Require Import gmap strings list fin_maps.

Local Open Scope Q_scope.

(** ** Evolution strategy networks ([es/networks.py]) *)

Module ES.

Section Networks.

(** The pytrees handled by the networks.  [brax.training.types] leaves
    them opaque ([Any] or [jax.Array]); so do we. *)
Context {Param Observation Logits Action PRNGKey ExtraValue : Type}.

(** [types.PolicyParams]: the tuple unpacked by [*params]. *)
Definition PolicyParams : Type := list Param.

(** [types.Extra]: a mapping from names to values. *)
Definition Extra : Type := gmap string ExtraValue.

(** [networks.FeedForwardNetwork]; only [apply] is called here.  It
    receives the unpacked parameters, then the observations. *)
Record FeedForwardNetwork : Type := {
  apply : PolicyParams -> Observation -> Logits
}.

(** [distribution.ParametricDistribution], by the two methods the
    policy calls. *)
Record ParametricDistribution : Type := {
  mode : Logits -> Action;
  sample : Logits -> PRNGKey -> Action
}.

Record ESNetworks : Type := {
  policy_network : FeedForwardNetwork;
  parametric_action_distribution : ParametricDistribution
}.

(** [types.Policy] *)
Definition Policy : Type := Observation -> PRNGKey -> Action * Extra.

(** The inner function [policy] of [make_policy]. *)
Definition policy (es_networks : ESNetworks) (params : PolicyParams)
    (deterministic : bool) : Policy :=
  fun observations key_sample =>
    let logits := apply (policy_network es_networks) params observations in
    if deterministic
    then (mode (parametric_action_distribution es_networks) logits, ∅)
    else (sample (parametric_action_distribution es_networks) logits key_sample, ∅).

(** [make_policy(params, deterministic=False)] *)
Definition make_policy (es_networks : ESNetworks) (params : PolicyParams)
    (deterministic : bool) : Policy :=
  policy es_networks params deterministic.

Definition make_policy_default (es_networks : ESNetworks)
    (params : PolicyParams) : Policy :=
  make_policy es_networks params false.

(** [make_inference_fn(es_networks)] returns [make_policy]. *)
Definition make_inference_fn (es_networks : ESNetworks)
    : PolicyParams -> bool -> Policy :=
  make_policy es_networks.

End Networks.

Arguments FeedForwardNetwork : clear implicits.
Arguments ParametricDistribution : clear implicits.
Arguments ESNetworks : clear implicits.

End ES.

(** ** Arrays and states as the tests read them ([brax.base]) *)

Module Base.

(** [Transform], batched over links: [pos] has shape (n, 3) and [rot]
    shape (n, 4), a quaternion (w, x, y, z) per link. *)
Record Transform : Type := { pos : list (list Q); rot : list (list Q) }.

(** [Motion], batched over links: [ang] and [vel] have shape (n, 3). *)
Record Motion : Type := { ang : list (list Q); vel : list (list Q) }.

(** The fields of the pipeline [State] that the tests and the
    specification name. *)
Record State : Type := {
  q : list Q;
  qd : list Q;
  x : Transform;
  xd : Motion;
  xd_i : Motion
}.

(** [jp.zeros(n)] *)
Definition zeros (n : nat) : list Q := replicate n 0.

(** [a[i, j]] on an array of rows. *)
Definition at2 (a : list (list Q)) (i j : nat) : option Q :=
  a !! i ≫= fun row => row !! j.

End Base.

(** ** Rounding to floating point

    jax computes in single precision.  A Python literal is a double
    that is rounded again when it enters a single-precision
    computation; the tolerances and bounds of the assertions are such
    literals, and their rounding decides comparisons at the boundary. *)

Module Float32.

(** The positive rational [n / d] rounded to [prec] significant bits, to
    nearest and ties to even (no overflow and no subnormal numbers:
    the values rounded here are between 1e-7 and 10). *)
Definition round_pos (prec : Z) (n d : positive) : Q :=
  let e0 := (Z.log2 (Zpos n) - Z.log2 (Zpos d))%Z in
  let below :=
    if (0 <=? e0)%Z
    then (Zpos n <? Zpos d * 2 ^ e0)%Z
    else (Zpos n * 2 ^ (- e0) <? Zpos d)%Z in
  let e := if below then (e0 - 1)%Z else e0 in
  let s := (prec - 1 - e)%Z in
  let N := if (0 <=? s)%Z then (Zpos n * 2 ^ s)%Z else Zpos n in
  let D := if (0 <=? s)%Z then Zpos d else (Zpos d * 2 ^ (- s))%Z in
  let q := (N / D)%Z in
  let r := (N mod D)%Z in
  let m :=
    if (2 * r <? D)%Z then q
    else if (D <? 2 * r)%Z then (q + 1)%Z
    else if Z.even q then q else (q + 1)%Z in
  Qred (if (0 <=? s)%Z
        then Qmake m (Z.to_pos (2 ^ s))
        else Qmake (m * 2 ^ (- s)) 1).

Definition round (prec : Z) (x : Q) : Q :=
  match Qnum x with
  | Z0 => 0
  | Zpos n => round_pos prec n (Qden x)
  | Zneg n => - round_pos prec n (Qden x)
  end.

(** Double and single precision. *)
Definition f64 (x : Q) : Q := round 53 x.
Definition f32 (x : Q) : Q := round 24 x.

(** A Python float literal where jax or numpy takes it into a
    single-precision computation. *)
Definition of_float (x : Q) : Q := f32 (f64 x).

(** [jp.array([...])] of Python floats. *)
Definition array (l : list Q) : list Q := of_float <$> l.

End Float32.

(** ** The assertions of [numpy.testing] and [unittest] used by the tests

    Each returns [true] when the Python assertion passes and [false]
    when it raises. *)

Module Testing.

Definition Qltb (a b : Q) : bool := negb (Qle_bool b a).

(** numpy broadcasting of two one-dimensional arrays in arithmetic: the
    lengths are equal, or one of them is 1. *)
Definition broadcast {A B : Type} (a : list A) (b : list B)
    : option (list (A * B)) :=
  if decide (length a = length b) then Some (zip a b)
  else match a, b with
       | [a0], _ => Some (map (fun y => (a0, y)) b)
       | _, [b0] => Some (map (fun y => (y, b0)) a)
       | _, _ => None
       end.

(** The assertions of [numpy.testing] do not broadcast arrays: the two
    must have one shape. *)
Definition same_shape {A B : Type} (x : list A) (y : list B)
    : option (list (A * B)) :=
  if decide (length x = length y) then Some (zip x y) else None.

Definition same_shape2 {A B : Type} (x : list (list A)) (y : list (list B))
    : option (list (A * B)) :=
  rows ← same_shape x y;
  cells ← mapM (fun p => same_shape (fst p) (snd p)) rows;
  Some (concat cells).

(** [np.testing.assert_array_less(x, y)]: [x < y] strictly, element by
    element. *)
Definition all_less (ps : list (Q * Q)) : bool :=
  forallb (fun p => Qltb (fst p) (snd p)) ps.

Definition assert_array_less (x y : list Q) : bool :=
  from_option all_less false (same_shape x y).

(** [np.testing.assert_allclose(actual, desired, rtol, atol)] on
    single-precision arrays: [|actual - desired| <= atol + rtol *
    |desired|], element by element, the right-hand side computed in
    single precision from the Python floats [rtol] and [atol].  The
    difference on the left is taken exactly: for the desired values 0
    and 1 of the tests a single-precision difference that passes is
    exact (it is the value itself, or the difference of two numbers
    within a factor two of each other). *)
Definition rtol_default : Q := 1e-7.

Definition tolerance (rtol atol d : Q) : Q :=
  Float32.f32 (Float32.of_float atol
               + Float32.f32 (Float32.of_float rtol * Qabs d)).

Definition close (rtol atol : Q) (p : Q * Q) : bool :=
  Qle_bool (Qabs (fst p - snd p)) (tolerance rtol atol (snd p)).

Definition assert_allclose (actual desired : list Q) (rtol atol : Q) : bool :=
  from_option (forallb (close rtol atol)) false (same_shape actual desired).

Definition assert_allclose2 (actual desired : list (list Q)) (rtol atol : Q)
    : bool :=
  from_option (forallb (close rtol atol)) false (same_shape2 actual desired).

(** [self.assertAlmostEqual(first, second, delta=delta)] with [first] a
    single-precision scalar and [second], [delta] Python floats, which
    are rounded to single precision: equal, or [|first - second| <=
    delta].  The difference is taken exactly, as in [close]: a
    single-precision difference that passes is of two numbers within a
    factor two of each other, and exact. *)
Definition assertAlmostEqual (first second delta : Q) : bool :=
  Qeq_bool first (Float32.of_float second)
  || Qle_bool (Qabs (first - Float32.of_float second)) (Float32.of_float delta).

End Testing.

(** ** The limit tests of [positional/pipeline_test.py]

    [brax.positional.pipeline], [brax.test_utils] and the fixtures are
    not part of the sources at hand: the harness takes them as
    parameters.  A call that raises is [None]. *)

Module PipelineTest.

Section Harness.

Context {System : Type}.

(** [test_utils.load_fixture(name)] *)
Variable load_fixture : string -> System.
(** [sys.tree_replace({'opt.timestep': dt})] *)
Variable tree_replace_timestep : System -> Q -> System.
(** [sys.init_q], [sys.qd_size()], [sys.act_size()] *)
Variable init_q : System -> list Q.
Variable qd_size : System -> nat.
Variable act_size : System -> nat.
(** [pipeline.init(sys, q, qd)] and [pipeline.step(sys, state, act)] *)
Variable init : System -> list Q -> list Q -> option Base.State.
Variable step : System -> Base.State -> list Q -> option Base.State.

(** [jax.jit(f)] computes what [f] computes. *)
Definition jit {A : Type} (f : A) : A := f.

(** [[
    for _ in range(n):
      state = j_pos_step(sys, state, jp.zeros(sys.act_size()))
      states.append(state)
    ]] *)
Fixpoint run (j_pos_step : System -> Base.State -> list Q -> option Base.State)
    (sys : System) (n : nat) (state : Base.State) (states : list Base.State)
    : option (Base.State * list Base.State) :=
  match n with
  | O => Some (state, states)
  | S n' =>
      state' ← j_pos_step sys state (Base.zeros (act_size sys));
      run j_pos_step sys n' state' (states ++ [state'])
  end.

(** [[
    qd = jp.zeros(sys.qd_size())
    qd = qd.at[0].set(2.5); qd = qd.at[1].set(2.5); qd = qd.at[2].set(2.5)
    ]]
    On an empty array [.at[0]] raises an [IndexError]; on any other an
    [.at[i].set] out of range leaves the array as it is.  2.5 is a
    single-precision number. *)
Definition launch_qd (sys : System) : option (list Q) :=
  let qd := Base.zeros (qd_size sys) in
  if decide (length qd = 0%nat) then None
  else
    let qd := <[0%nat := 2.5]> qd in
    let qd := <[1%nat := 2.5]> qd in
    let qd := <[2%nat := 2.5]> qd in
    Some qd.

(** The state on which a limit test makes its assertions: the fixture
    is loaded, the timestep set to 0.001, the body launched and the
    pipeline stepped 1000 times with a zero action. *)
Definition launched_final (fixture : string) : option Base.State :=
  let sys := load_fixture fixture in
  let sys := tree_replace_timestep sys 0.001 in
  qd ← launch_qd sys;
  state ← init sys (init_q sys) qd;
  let j_pos_step := jit step in
  fst <$> run j_pos_step sys 1000 state [].

(** The assertions of [test_3d_sliding_joint]. *)
Definition sliding_joint_asserts (state : Base.State) : bool :=
  let x := Base.x state in
  let xd := Base.xd state in
  Testing.assert_allclose2 (Base.rot x) [Float32.array [1; 0; 0; 0]]
    Testing.rtol_default 1e-3
  && from_option
       (fun vel0 => Testing.assert_array_less vel0
                      (Float32.array [-1.18; -1.18; -1.18]))
       false (Base.vel xd !! 0%nat)
  && from_option
       (fun ang0 => Testing.assert_allclose ang0 (Float32.array [0; 0; 0])
                      Testing.rtol_default 1e-7)
       false (Base.ang xd !! 0%nat).

Definition test_3d_sliding_joint : bool :=
  from_option sliding_joint_asserts false
    (launched_final "triple_prismatic.xml").

(** The assertions of [test_3d_prismaversal_joint]. *)
Definition prismaversal_joint_asserts (state : Base.State) : bool :=
  let xd := Base.xd state in
  from_option
    (fun vx => from_option
       (fun vz => Testing.assert_array_less [vx; vz]
                    (Float32.array [-1.18; -1.18]))
       false (Base.at2 (Base.vel xd) 0 2))
    false (Base.at2 (Base.vel xd) 0 0)
  && from_option
       (fun wy => Testing.assert_array_less [wy] (Float32.array [-1.15]))
       false (Base.at2 (Base.ang xd) 0 1).

Definition test_3d_prismaversal_joint : bool :=
  from_option prismaversal_joint_asserts false
    (launched_final "prismaversal_3dof_joint.xml").

End Harness.

End PipelineTest.

(** ** A test double for the pipeline

    One body whose degrees of freedom each move between the limits
    [-limit] and [limit] and are reflected there with a restitution
    factor.  It stands in for the pipeline where the harness is run. *)

Module Stub.

Inductive Dof : Type := Slide (axis : nat) | Turn (axis : nat).

Record System : Type := {
  dofs : list Dof;
  timestep : Q;
  limit : Q;
  restitution : Q
}.

Definition load_fixture (name : string) : System :=
  {| dofs :=
       if String.eqb name "triple_prismatic.xml"
       then [Slide 0; Slide 1; Slide 2]
       else if String.eqb name "prismaversal_3dof_joint.xml"
       then [Slide 0; Turn 1; Slide 2]
       else [];
     timestep := 0.002;
     limit := 1;
     restitution := 0.8 |}.

Definition tree_replace_timestep (sys : System) (dt : Q) : System :=
  {| dofs := dofs sys; timestep := dt;
     limit := limit sys; restitution := restitution sys |}.

Definition qd_size (sys : System) : nat := length (dofs sys).
Definition act_size (sys : System) : nat := length (dofs sys).
Definition init_q (sys : System) : list Q := Base.zeros (length (dofs sys)).

Definition slide_axis (d : Dof) : option nat :=
  match d with Slide a => Some a | Turn _ => None end.

Definition turn_axis (d : Dof) : option nat :=
  match d with Turn a => Some a | Slide _ => None end.

(** The 3-vector whose component [a] is the value of the degree of
    freedom selected on axis [a]. *)
Definition scatter (sel : Dof -> option nat) (ds : list Dof) (vals : list Q)
    : list Q :=
  foldr (fun p acc =>
           match sel (fst p) with
           | Some a => <[a := snd p]> acc
           | None => acc
           end)
        [0; 0; 0] (zip ds vals).

Definition state_of (sys : System) (q qd : list Q) : Base.State :=
  let x := {| Base.pos := [scatter slide_axis (dofs sys) q];
              Base.rot := [[1; 0; 0; 0]] |} in
  let xd := {| Base.ang := [scatter turn_axis (dofs sys) qd];
               Base.vel := [scatter slide_axis (dofs sys) qd] |} in
  {| Base.q := q; Base.qd := qd; Base.x := x; Base.xd := xd; Base.xd_i := xd |}.

Definition init (sys : System) (q qd : list Q) : option Base.State :=
  if decide (length q = length (dofs sys) ∧ length qd = length (dofs sys))
  then Some (state_of sys q qd)
  else None.

Definition bounce (dt lim e : Q) (p : Q * Q) : Q * Q :=
  let q' := Qred (fst p + dt * snd p) in
  if Testing.Qltb lim q' then (lim, Qred (- e * snd p))
  else if Testing.Qltb q' (- lim) then (- lim, Qred (- e * snd p))
  else (q', snd p).

Definition step (sys : System) (state : Base.State) (act : list Q)
    : option Base.State :=
  let moved := map (bounce (timestep sys) (limit sys) (restitution sys))
                   (zip (Base.q state) (Base.qd state)) in
  Some (state_of sys (map fst moved) (map snd moved)).

End Stub.

(** ** Array operations of the remaining tests *)

Module Numpy.

(** [jp.zeros_like(a)] on an array of rows. *)
Definition zeros_like (a : list (list Q)) : list (list Q) :=
  map (map (fun _ => 0)) a.

(** [a - b] on arrays of rows, broadcast dimension by dimension. *)
Definition subtract2 (a b : list (list Q)) : option (list (list Q)) :=
  rows ← Testing.broadcast a b;
  mapM (fun p => map (fun c => fst c - snd c)
                   <$> Testing.broadcast (fst p) (snd p))
       rows.

Definition sum_squares (v : list Q) : Q :=
  foldr (fun d acc => d * d + acc) 0 v.

(** [jp.linalg.norm(a) < c], the norm of an array of rows being the
    square root of the sum of the squares of its entries.  The square
    root is taken out: for [0 < c] the norm is below [c] when the sum
    of squares is below [c * c], and no norm is below a [c <= 0]. *)
Definition norm_less (a : list (list Q)) (c : Q) : bool :=
  Testing.Qltb 0 c && Testing.Qltb (sum_squares (concat a)) (c * c).

End Numpy.

(** ** The other tests of [positional/pipeline_test.py] *)

Module PipelineTestSuite.

(** What the tests call of brax and jax, none of it among the sources at
    hand.  A call that raises is [None]. *)
Record Brax : Type := {
  System : Type;
  Link : Type;
  OracleState : Type;
  (** [test_utils.load_fixture(name)] *)
  load_fixture : string -> System;
  (** [sys.tree_replace({'opt.timestep': dt})] *)
  tree_replace_timestep : System -> Q -> System;
  (** [sys.link] and [sys.replace(link=link)] *)
  sys_link : System -> Link;
  replace_link : System -> Link -> System;
  (** [link.replace(constraint_vel_damping=v)] and the like *)
  link_replace_constraint_vel_damping : Link -> list Q -> Link;
  link_replace_constraint_limit_stiffness : Link -> list Q -> Link;
  link_replace_constraint_ang_damping : Link -> list Q -> Link;
  (** [sys.replace(ang_damping=v)] and the like *)
  replace_ang_damping : System -> Q -> System;
  replace_solver_iterations : System -> nat -> System;
  replace_collide_scale : System -> Q -> System;
  (** [sys.init_q] and the sizes of a system *)
  init_q : System -> list Q;
  q_size : System -> nat;
  qd_size : System -> nat;
  act_size : System -> nat;
  num_links : System -> nat;
  (** [pipeline.init] and [pipeline.step] *)
  init : System -> list Q -> list Q -> option Base.State;
  step : System -> Base.State -> list Q -> option Base.State;
  (** [g_pipeline.init] and [g_pipeline.step] *)
  g_init : System -> list Q -> list Q -> option OracleState;
  g_step : System -> OracleState -> list Q -> option OracleState;
  (** [state.q], [state.qd], [state.x.pos], [state.root_com] and
      [state.cd] of a state of the generalized pipeline *)
  g_q : OracleState -> list Q;
  g_qd : OracleState -> list Q;
  g_x_pos : OracleState -> list (list Q);
  g_root_com : OracleState -> list (list Q);
  g_cd : OracleState -> Base.Motion;
  (** [kinematics.forward(sys, q, qd)] *)
  forward : System -> list Q -> list Q -> option (Base.Transform * Base.Motion);
  (** [com.from_world(sys, x, xd)] *)
  from_world :
    System -> Base.Transform -> Base.Motion
    -> option (Base.Transform * Base.Motion);
  (** [Transform.create(pos=off).vmap().do(cd)] *)
  transform_do : list (list Q) -> Base.Motion -> option Base.Motion;
  (** [jax.random.uniform(jax.random.PRNGKey(seed), (n,))] *)
  random_uniform : nat -> nat -> list Q
}.

(** The same collaborators with another [pipeline.init]. *)
Definition with_init (B : Brax)
    (init' : System B -> list Q -> list Q -> option Base.State) : Brax :=
  {| System := System B; Link := Link B; OracleState := OracleState B;
     load_fixture := load_fixture B;
     tree_replace_timestep := tree_replace_timestep B;
     sys_link := sys_link B; replace_link := replace_link B;
     link_replace_constraint_vel_damping :=
       link_replace_constraint_vel_damping B;
     link_replace_constraint_limit_stiffness :=
       link_replace_constraint_limit_stiffness B;
     link_replace_constraint_ang_damping :=
       link_replace_constraint_ang_damping B;
     replace_ang_damping := replace_ang_damping B;
     replace_solver_iterations := replace_solver_iterations B;
     replace_collide_scale := replace_collide_scale B;
     init_q := init_q B; q_size := q_size B; qd_size := qd_size B;
     act_size := act_size B; num_links := num_links B;
     init := init';
     step := step B;
     g_init := g_init B; g_step := g_step B;
     g_q := g_q B; g_qd := g_qd B; g_x_pos := g_x_pos B;
     g_root_com := g_root_com B; g_cd := g_cd B;
     forward := forward B; from_world := from_world B;
     transform_do := transform_do B; random_uniform := random_uniform B |}.

(** [state.replace(xd=xd, xd_i=xd_i)] *)
Definition state_replace_xd (state : Base.State) (xd xd_i : Base.Motion)
    : Base.State :=
  {| Base.q := Base.q state; Base.qd := Base.qd state;
     Base.x := Base.x state; Base.xd := xd; Base.xd_i := xd_i |}.

Section Suite.

Variable B : Brax.

(** [[
    for _ in range(n):
      state = j_step(sys, state, jp.zeros(sys.act_size()))
    ]] *)
Fixpoint loop {S : Type} (j_step : System B -> S -> list Q -> option S)
    (sys : System B) (n : nat) (state : S) : option S :=
  match n with
  | O => Some state
  | S n' =>
      state' ← j_step sys state (Base.zeros (act_size B sys));
      loop j_step sys n' state'
  end.

(** *** [test_sliding_capsule] *)

(** The state on which [test_sliding_capsule] makes its assertions.
    [qd.at[0].set(5.0)] raises an [IndexError] on an empty [qd]. *)
Definition capsule_final : option Base.State :=
  let sys := load_fixture B "capsule.xml" in
  let sys := tree_replace_timestep B sys 0.001 in
  let sys := replace_collide_scale B sys 0.25 in
  let qd := Base.zeros (qd_size B sys) in
  qd ← (if decide (length qd = 0%nat) then None
        else Some (<[0%nat := 5]> qd));
  state ← init B sys (init_q B sys) qd;
  let j_pos_step := PipelineTest.jit (step B) in
  loop j_pos_step sys 1000 state.

Definition sliding_capsule_asserts (state : Base.State) : bool :=
  let x := Base.x state in
  let xd := Base.xd state in
  from_option (fun z => Testing.assertAlmostEqual z 0.25 1e-2) false
    (Base.at2 (Base.pos x) 0 2)
  && Testing.assert_allclose2 (Base.rot x) [Float32.array [1; 0; 0; 0]]
       Testing.rtol_default 1e-3
  && Testing.assert_allclose2 (Base.vel xd) (Numpy.zeros_like (Base.vel xd))
       Testing.rtol_default 1e-2
  && Testing.assert_allclose2 (Base.ang xd) (Numpy.zeros_like (Base.ang xd))
       Testing.rtol_default 1e-2.

Definition test_sliding_capsule : bool :=
  from_option sliding_capsule_asserts false capsule_final.

(** *** [test_pendulum] *)





(** *** [test_spherical_pendulum] *)

Definition spherical_sys : System B :=
  let sys := load_fixture B "single_spherical_pendulum.xml" in
  let link := link_replace_constraint_limit_stiffness B (sys_link B sys)
                [0; 0; 0] in
  let link := link_replace_constraint_ang_damping B link [0; 0; 0] in
  let sys := replace_link B sys link in
  let sys := replace_ang_damping B sys 0 in
  let sys := tree_replace_timestep B sys 0.001 in
  replace_solver_iterations B sys 500.

Definition spherical_init_q : list Q := [0.1; 0.2; 0.3].

Definition spherical_init_qd : list Q :=
  map (fun u => u / 10) (random_uniform B 0 3).

(** The states the two pipelines are started from: for the positional
    one the state of [pipeline.init], with [xd] taken from the
    generalized pipeline and [xd_i] derived from it. *)
Definition spherical_start : option (Base.State * OracleState B) :=
  let sys := spherical_sys in
  state ← init B sys spherical_init_q spherical_init_qd;
  state_g ← g_init B sys spherical_init_q spherical_init_qd;
  off ← Numpy.subtract2 (g_x_pos B state_g) (g_root_com B state_g);
  xd ← transform_do B off (g_cd B state_g);
  x_xd_i ← from_world B sys (Base.x state) xd;
  Some (state_replace_xd state xd (snd x_xd_i), state_g).

(** [x.rot] of the positional pipeline and [x_g.rot] of the generalized
    one after their 1000 steps. *)
Definition spherical_rots : option (list (list Q) * list (list Q)) :=
  let sys := spherical_sys in
  start ← spherical_start;
  let j_pos_step := PipelineTest.jit (step B) in
  state ← loop j_pos_step sys 1000 (fst start);
  let x := Base.x state in
  let j_g_step := PipelineTest.jit (g_step B) in
  let j_forward := PipelineTest.jit (forward B) in
  state ← loop j_g_step sys 1000 (snd start);
  x_g ← j_forward sys (g_q B state) (g_qd B state);
  Some (Base.rot x, Base.rot (fst x_g)).

Definition test_spherical_pendulum : bool :=
  from_option id false
    (rots ← spherical_rots;
     diff ← Numpy.subtract2 (snd rots) (fst rots);
     Some (Numpy.norm_less diff 1e-2)).

End Suite.

End PipelineTestSuite.

(** ** Test doubles for the other tests *)

Module StubSuite.

Definition load_fixture (name : string) : Stub.System :=
  if String.eqb name "capsule.xml"
  then {| Stub.dofs := [Stub.Slide 2]; Stub.timestep := 0.002;
          Stub.limit := 0.25; Stub.restitution := 0 |}
  else if String.eqb name "double_pendulum.xml"
  then {| Stub.dofs := [Stub.Turn 1; Stub.Turn 1]; Stub.timestep := 0.002;
          Stub.limit := 1; Stub.restitution := 0.8 |}
  else if String.eqb name "single_spherical_pendulum.xml"
  then {| Stub.dofs := [Stub.Turn 0; Stub.Turn 1; Stub.Turn 2];
          Stub.timestep := 0.002; Stub.limit := 1; Stub.restitution := 0.8 |}
  else Stub.load_fixture name.

Definition forward (sys : Stub.System) (q qd : list Q)
    : option (Base.Transform * Base.Motion) :=
  (fun state => (Base.x state, Base.xd state)) <$> Stub.init sys q qd.

(** The pipeline double, also in the place of the generalized pipeline. *)
Definition brax : PipelineTestSuite.Brax :=
  {| PipelineTestSuite.System := Stub.System;
     PipelineTestSuite.Link := unit;
     PipelineTestSuite.OracleState := Base.State;
     PipelineTestSuite.load_fixture := load_fixture;
     PipelineTestSuite.tree_replace_timestep := Stub.tree_replace_timestep;
     PipelineTestSuite.sys_link := fun _ => tt;
     PipelineTestSuite.replace_link := fun sys _ => sys;
     PipelineTestSuite.link_replace_constraint_vel_damping := fun l _ => l;
     PipelineTestSuite.link_replace_constraint_limit_stiffness := fun l _ => l;
     PipelineTestSuite.link_replace_constraint_ang_damping := fun l _ => l;
     PipelineTestSuite.replace_ang_damping := fun sys _ => sys;
     PipelineTestSuite.replace_solver_iterations := fun sys _ => sys;
     PipelineTestSuite.replace_collide_scale := fun sys _ => sys;
     PipelineTestSuite.init_q := Stub.init_q;
     PipelineTestSuite.q_size := Stub.qd_size;
     PipelineTestSuite.qd_size := Stub.qd_size;
     PipelineTestSuite.act_size := Stub.act_size;
     PipelineTestSuite.num_links := fun _ => 1%nat;
     PipelineTestSuite.init := Stub.init;
     PipelineTestSuite.step := Stub.step;
     PipelineTestSuite.g_init := Stub.init;
     PipelineTestSuite.g_step := Stub.step;
     PipelineTestSuite.g_q := Base.q;
     PipelineTestSuite.g_qd := Base.qd;
     PipelineTestSuite.g_x_pos := fun state => Base.pos (Base.x state);
     PipelineTestSuite.g_root_com := fun _ => [[0; 0; 0]];
     PipelineTestSuite.g_cd := Base.xd;
     PipelineTestSuite.forward := forward;
     PipelineTestSuite.from_world := fun _ x xd => Some (x, xd);
     PipelineTestSuite.transform_do := fun _ cd => Some cd;
     PipelineTestSuite.random_uniform := fun _ n => replicate n 0.5 |}.

(** A [pipeline.init] that returns other velocities than the double's. *)
Definition init_other_xd (sys : Stub.System) (q qd : list Q)
    : option Base.State :=
  (fun state =>
     PipelineTestSuite.state_replace_xd state
       {| Base.ang := [[9; 9; 9]]; Base.vel := [[9; 9; 9]] |}
       {| Base.ang := [[7; 7; 7]]; Base.vel := [[7; 7; 7]] |})
  <$> Stub.init sys q qd.

End StubSuite.

(** ** Networks to run the policy on *)

Module ESDouble.

(** A network that doubles the observation and ignores its parameters,
    with a distribution whose mode is the logits and whose samples add
    the key to them. *)
Definition doubling : ES.ESNetworks nat nat nat nat nat :=
  {| ES.policy_network :=
       {| ES.apply := fun (_ : list nat) (o : nat) => (2 * o)%nat |};
     ES.parametric_action_distribution :=
       {| ES.mode := fun l : nat => l;
          ES.sample := fun l k : nat => (l + k)%nat |} |}.

End ESDouble.

(** * Properties *)

From Stdlib Require Import Reals Qreals Lra Lqa.

Local Open Scope Q_scope.

(** ** Policy inference of the evolution-strategy agent *)

Section ESFacts.

Context {Param Observation Logits Action PRNGKey ExtraValue : Type}.

Local Abbreviation Networks :=
  (ES.ESNetworks Param Observation Logits Action PRNGKey).

(** The stochastic policy does read its key: with a distribution that
    samples the key itself, two keys give two actions. *)
Lemma stochastic_policy_reads_key (net : ES.FeedForwardNetwork Param Observation Logits)
    (params : ES.PolicyParams) (observations : Observation) (k1 k2 : PRNGKey) :
  k1 <> k2 ->
  let echo := {| ES.policy_network := net;
                 ES.parametric_action_distribution :=
                   {| ES.mode := fun _ => k1; ES.sample := fun _ k => k |} |} in
  ES.make_inference_fn (ExtraValue := ExtraValue) echo params false observations k1
  <> ES.make_inference_fn echo params false observations k2.
Proof.
  intros Hk echo Heq. apply Hk.
  unfold ES.make_inference_fn, ES.make_policy, ES.policy in Heq.
  simpl in Heq. congruence.
Qed.

(** C10.  A policy made with [deterministic=True] returns the mode of
    the action distribution at the logits of the observations, and an
    empty extras dictionary, whatever the sampling key: two keys give
    the same result, which is determined by the parameters and the
    observations alone. *)
Theorem deterministic_policy_ignores_key (es_networks : Networks)
    (params : ES.PolicyParams) (observations : Observation)
    (key1 key2 : PRNGKey) :
  let policy := ES.make_inference_fn (ExtraValue := ExtraValue)
                  es_networks params true in
  policy observations key1 = policy observations key2
  /\ policy observations key1
     = (ES.mode (ES.parametric_action_distribution es_networks)
          (ES.apply (ES.policy_network es_networks) params observations),
        ∅).
Proof.
  intros policy. subst policy.
  unfold ES.make_inference_fn, ES.make_policy, ES.policy.
  split; reflexivity.
Qed.

End ESFacts.

(** ** Assertions on arrays *)

Section TestingFacts.

Lemma Qltb_lt (a b : Q) : Testing.Qltb a b = true <-> a < b.
Proof.
  unfold Testing.Qltb. rewrite negb_true_iff.
  split.
  - intros H. apply Qnot_le_lt. intros Hle.
    apply Qle_bool_iff in Hle. congruence.
  - intros H. destruct (Qle_bool b a) eqn:E; [|reflexivity].
    apply Qle_bool_iff in E. exfalso. exact (Qlt_not_le _ _ H E).
Qed.

Lemma same_shape_Some {A B : Type} (x : list A) (y : list B)
    (ps : list (A * B)) :
  Testing.same_shape x y = Some ps -> length x = length y /\ ps = zip x y.
Proof.
  unfold Testing.same_shape. intros H.
  destruct (decide (length x = length y)) as [Hlen|]; [|discriminate].
  injection H as <-. split; [exact Hlen|reflexivity].
Qed.

(** The single-precision values of the bounds and tolerances of the
    tests. *)
Lemma bound_118 : Float32.of_float (-1.18) = - (9898557 # 8388608).
Proof. vm_compute. reflexivity. Qed.

Lemma bound_115 : Float32.of_float (-1.15) = - (9646899 # 8388608).
Proof. vm_compute. reflexivity. Qed.

Lemma tolerance_1e3_at_0 :
  Testing.tolerance Testing.rtol_default 1e-3 0 = 8589935 # 8589934592.
Proof. vm_compute. reflexivity. Qed.

Lemma tolerance_1e3_at_1 :
  Testing.tolerance Testing.rtol_default 1e-3 1 = 4295397 # 4294967296.
Proof. vm_compute. reflexivity. Qed.

Lemma tolerance_1e2_at_0 :
  Testing.tolerance Testing.rtol_default 1e-2 0 = 5368709 # 536870912.
Proof. vm_compute. reflexivity. Qed.

Lemma tolerance_1e7_at_0 :
  Testing.tolerance Testing.rtol_default 1e-7 0 = 14073749 # 140737488355328.
Proof. vm_compute. reflexivity. Qed.

Lemma delta_1e2 : Float32.of_float 1e-2 = 5368709 # 536870912.
Proof. vm_compute. reflexivity. Qed.

Lemma quarter : Float32.of_float 0.25 = 1 # 4.
Proof. vm_compute. reflexivity. Qed.

Lemma identity_row : Float32.array [1; 0; 0; 0] = [1; 0; 0; 0].
Proof. vm_compute. reflexivity. Qed.

Lemma zero_row : Float32.array [0; 0; 0] = [0; 0; 0].
Proof. vm_compute. reflexivity. Qed.

Lemma bound_118_row3 :
  Float32.array [-1.18; -1.18; -1.18]
  = [- (9898557 # 8388608); - (9898557 # 8388608); - (9898557 # 8388608)].
Proof. vm_compute. reflexivity. Qed.

Lemma bound_118_row2 :
  Float32.array [-1.18; -1.18]
  = [- (9898557 # 8388608); - (9898557 # 8388608)].
Proof. vm_compute. reflexivity. Qed.

Lemma bound_115_row1 : Float32.array [-1.15] = [- (9646899 # 8388608)].
Proof. vm_compute. reflexivity. Qed.

End TestingFacts.

(** ** The loops of the tests *)

Section LoopFacts.

Context {System : Type}.
Variable act_size : System -> nat.
Variable j_step : System -> Base.State -> list Q -> option Base.State.

(** X1.  On a system without degrees of freedom the launch raises (the
    first [.at[0].set] is out of bounds for an empty array).  On any
    other it returns an array of the length of the velocity: its
    entries below index 3 are 2.5, the others 0, and an index that the
    system does not have is left out rather than added. *)
Theorem launch_qd_lookup (qd_size : System -> nat) (sys : System) :
  PipelineTest.launch_qd qd_size sys
  = if decide (qd_size sys = 0%nat) then None
    else Some ((fun i : nat => if decide (i < 3)%nat then 2.5 else 0)
                 <$> seq 0 (qd_size sys)).
Proof.
  unfold PipelineTest.launch_qd, Base.zeros. rewrite length_replicate.
  destruct (decide (qd_size sys = 0%nat)) as [Hz|Hz]; [reflexivity|].
  f_equal. apply list_eq. intros i.
  rewrite !list_lookup_insert, !length_insert, length_replicate.
  rewrite list_lookup_fmap.
  destruct (decide (i < qd_size sys)%nat) as [Hi|Hi].
  - rewrite (lookup_replicate_2 _ _ _ Hi), (lookup_seq_lt _ _ _ Hi). simpl.
    repeat case_decide; try reflexivity; lia.
  - assert (Hnone : replicate (qd_size sys) 0 !! i = None).
    { apply lookup_replicate_None. lia. }
    rewrite Hnone, lookup_seq_ge by lia. simpl.
    repeat case_decide; try reflexivity; lia.
Qed.

(** The recording loop only appends to the list it is given. *)
Lemma run_extends (sys : System) (n : nat) (state s : Base.State)
    (acc states : list Base.State) :
  PipelineTest.run act_size j_step sys n state acc = Some (s, states) ->
  exists traj, states = acc ++ traj.
Proof.
  revert state acc. induction n as [|n IH]; intros state acc H; simpl in H.
  - injection H as <- <-. exists []. rewrite app_nil_r. reflexivity.
  - destruct (j_step sys state (Base.zeros (act_size sys))) as [state'|];
      [|discriminate].
    simpl in H. destruct (IH _ _ H) as [traj ->].
    exists (state' :: traj). rewrite <- app_assoc. reflexivity.
Qed.

(** X2.  The list that the loop of the limit tests records is the
    trajectory:
    it has one state per iteration, each is the step of the state
    before it (the first of the state the loop starts from), and the
    state the loop ends in is the last of them. *)
Theorem run_records_trajectory (sys : System) (n : nat)
    (state s : Base.State) (acc states : list Base.State) :
  PipelineTest.run act_size j_step sys n state acc = Some (s, states) ->
  exists traj,
    states = acc ++ traj
    /\ length traj = n
    /\ last (state :: traj) = Some s
    /\ forall (i : nat) (a b : Base.State),
         (state :: traj) !! i = Some a ->
         (state :: traj) !! S i = Some b ->
         j_step sys a (Base.zeros (act_size sys)) = Some b.
Proof.
  revert state acc. induction n as [|n IH]; intros state acc H; simpl in H.
  - injection H as <- <-. exists []. rewrite app_nil_r.
    repeat split. intros i a b _ Hb. destruct i; discriminate.
  - destruct (j_step sys state (Base.zeros (act_size sys))) as [state'|] eqn:Hstep;
      [|discriminate].
    simpl in H. destruct (IH _ _ H) as (traj & Hstates & Hlen & Hlast & Hchain).
    exists (state' :: traj). split; [|split; [|split]].
    + rewrite Hstates, <- app_assoc. reflexivity.
    + simpl. rewrite Hlen. reflexivity.
    + exact Hlast.
    + intros [|i] a b Ha Hb.
      * simpl in Ha, Hb. injection Ha as <-. injection Hb as <-. exact Hstep.
      * apply (Hchain i a b); assumption.
Qed.

(** X3.  Looping [m + n] times is looping [m] times and then [n] times from
    where that ended, with the list recorded so far. *)
Theorem run_plus (sys : System) (m n : nat) (state : Base.State)
    (acc : list Base.State) :
  PipelineTest.run act_size j_step sys (m + n) state acc
  = PipelineTest.run act_size j_step sys m state acc
      ≫= fun r => PipelineTest.run act_size j_step sys n (fst r) (snd r).
Proof.
  revert state acc. induction m as [|m IH]; intros state acc; simpl.
  - reflexivity.
  - destruct (j_step sys state (Base.zeros (act_size sys))) as [state'|];
      [|reflexivity].
    simpl. apply IH.
Qed.

End LoopFacts.

(** X4.  The loop that records its states (limit tests) and the one that
    does not (the other tests) end in the same state, and fail
    together. *)
Theorem run_final_is_loop (B : PipelineTestSuite.Brax)
    (j_step : PipelineTestSuite.System B -> Base.State -> list Q
              -> option Base.State)
    (sys : PipelineTestSuite.System B) (n : nat) (state : Base.State)
    (acc : list Base.State) :
  fst <$> PipelineTest.run (PipelineTestSuite.act_size B) j_step sys n state acc
  = PipelineTestSuite.loop B j_step sys n state.
Proof.
  revert state acc. induction n as [|n IH]; intros state acc; simpl.
  - reflexivity.
  - destruct (j_step sys state _) as [state'|]; [|reflexivity].
    simpl. apply IH.
Qed.

(** Three iterations of the loop on the pipeline double. *)
Lemma run_records_trajectory_witness :
  exists s states,
    PipelineTest.run Stub.act_size Stub.step
      (Stub.load_fixture "triple_prismatic.xml") 3
      (Stub.state_of (Stub.load_fixture "triple_prismatic.xml")
         [0; 0; 0] [2.5; 2.5; 2.5])
      [] = Some (s, states)
    /\ exists traj,
         states = [] ++ traj
         /\ length traj = 3%nat
         /\ last (Stub.state_of (Stub.load_fixture "triple_prismatic.xml")
                    [0; 0; 0] [2.5; 2.5; 2.5] :: traj) = Some s
         /\ forall (i : nat) (a b : Base.State),
              (Stub.state_of (Stub.load_fixture "triple_prismatic.xml")
                 [0; 0; 0] [2.5; 2.5; 2.5] :: traj) !! i = Some a ->
              (Stub.state_of (Stub.load_fixture "triple_prismatic.xml")
                 [0; 0; 0] [2.5; 2.5; 2.5] :: traj) !! S i = Some b ->
              Stub.step (Stub.load_fixture "triple_prismatic.xml") a
                (Base.zeros (Stub.act_size
                               (Stub.load_fixture "triple_prismatic.xml")))
              = Some b.
Proof.
  eexists _, _. split; [reflexivity|].
  apply (run_records_trajectory Stub.act_size Stub.step
           (Stub.load_fixture "triple_prismatic.xml") 3).
  reflexivity.
Defined.

(** ** Assertions on arrays of rows *)

Section RowFacts.


Lemma elem_of_concat {A : Type} (c : A) (ls : list (list A)) :
  c ∈ concat ls <-> exists l, c ∈ l /\ l ∈ ls.
Proof.
  rewrite list_elem_of_In, in_concat. split.
  - intros (l & Hl & Hc). exists l. split; apply list_elem_of_In; assumption.
  - intros (l & Hc & Hl). exists l. split; apply list_elem_of_In; assumption.
Qed.

(** What a passing [assert_array_less] says: one shape, and every entry
    below the one it is compared with. *)
Lemma assert_array_less_bound (x y : list Q) :
  Testing.assert_array_less x y = true ->
  length x = length y
  /\ forall i a b, x !! i = Some a -> y !! i = Some b -> a < b.
Proof.
  unfold Testing.assert_array_less. intros H.
  destruct (Testing.same_shape x y) as [ps|] eqn:Hps; [|discriminate].
  simpl in H. apply same_shape_Some in Hps as [Hlen ->].
  split; [exact Hlen|]. intros i a b Ha Hb.
  unfold Testing.all_less in H. rewrite forallb_forall in H.
  apply Qltb_lt. apply (H (a, b)). apply list_elem_of_In.
  eapply list_elem_of_lookup_2. apply lookup_zip_with_Some. eauto.
Qed.

(** What a passing [assert_allclose] says of two arrays: one shape, and
    every entry within the tolerance of the desired one. *)
Lemma assert_allclose_bound (x y : list Q) (rtol atol : Q) :
  Testing.assert_allclose x y rtol atol = true ->
  length x = length y
  /\ forall i a d, x !! i = Some a -> y !! i = Some d ->
       Qabs (a - d) <= Testing.tolerance rtol atol d.
Proof.
  unfold Testing.assert_allclose. intros H.
  destruct (Testing.same_shape x y) as [ps|] eqn:Hps; [|discriminate].
  simpl in H. apply same_shape_Some in Hps as [Hlen ->].
  split; [exact Hlen|]. intros i a d Ha Hd.
  rewrite forallb_forall in H.
  apply Qle_bool_iff. apply (H (a, d)). apply list_elem_of_In.
  eapply list_elem_of_lookup_2. apply lookup_zip_with_Some. eauto.
Qed.

(** The same for arrays of rows. *)
Lemma assert_allclose2_bound (a b : list (list Q)) (rtol atol : Q) :
  Testing.assert_allclose2 a b rtol atol = true ->
  length a = length b
  /\ forall i ra rb, a !! i = Some ra -> b !! i = Some rb ->
       length ra = length rb
       /\ forall j u d, ra !! j = Some u -> rb !! j = Some d ->
            Qabs (u - d) <= Testing.tolerance rtol atol d.
Proof.
  unfold Testing.assert_allclose2, Testing.same_shape2. intros H.
  destruct (Testing.same_shape a b) as [rows|] eqn:Hrows; [|discriminate].
  simpl in H.
  destruct (mapM _ rows) as [cellss|] eqn:Hcells; [|discriminate].
  simpl in H. apply same_shape_Some in Hrows as [Hlen ->].
  split; [exact Hlen|]. intros i ra rb Ha Hb.
  apply mapM_Some_1 in Hcells.
  assert (Hi : zip a b !! i = Some (ra, rb)).
  { apply lookup_zip_with_Some. eauto. }
  destruct (Forall2_lookup_l _ _ _ _ _ Hcells Hi) as (cells & Hcs & Hsh).
  simpl in Hsh. apply same_shape_Some in Hsh as [Hl ->].
  split; [exact Hl|]. intros j u d Hu Hd.
  rewrite forallb_forall in H.
  apply Qle_bool_iff. apply (H (u, d)). apply list_elem_of_In.
  apply elem_of_concat. exists (zip ra rb). split.
  - eapply list_elem_of_lookup_2. apply lookup_zip_with_Some. eauto.
  - eapply list_elem_of_lookup_2, Hcs.
Qed.

(** An array that is close to [[1, 0, 0, 0]] is one row of four
    components, each within the single-precision tolerance for it. *)
Lemma allclose_identity_row (rot : list (list Q)) :
  Testing.assert_allclose2 rot [Float32.array [1; 0; 0; 0]]
    Testing.rtol_default 1e-3 = true ->
  exists w x y z,
    rot = [[w; x; y; z]]
    /\ Qabs (w - 1) <= 4295397 # 4294967296
    /\ Qabs x <= 8589935 # 8589934592
    /\ Qabs y <= 8589935 # 8589934592
    /\ Qabs z <= 8589935 # 8589934592.
Proof.
  rewrite identity_row. intros H.
  apply assert_allclose2_bound in H as [Hlen Hrows].
  destruct rot as [|row [|row' rot]]; try discriminate.
  destruct (Hrows 0%nat row [1; 0; 0; 0] eq_refl eq_refl) as [Hl Hentries].
  destruct row as [|w [|x [|y [|z [|t row]]]]]; try discriminate.
  exists w, x, y, z. split; [reflexivity|].
  pose proof (Hentries 0%nat w 1 eq_refl eq_refl) as Hw.
  pose proof (Hentries 1%nat x 0 eq_refl eq_refl) as Hx.
  pose proof (Hentries 2%nat y 0 eq_refl eq_refl) as Hy.
  pose proof (Hentries 3%nat z 0 eq_refl eq_refl) as Hz.
  rewrite tolerance_1e3_at_1 in Hw.
  rewrite tolerance_1e3_at_0 in Hx, Hy, Hz.
  assert (Hzero : forall c, Qabs c == Qabs (c - 0)).
  { intros c. apply Qabs_wd. ring. }
  split; [exact Hw|].
  rewrite (Hzero x), (Hzero y), (Hzero z). repeat split; assumption.
Qed.

(** X5.  What [assert_allclose(x.rot, [[1, 0, 0, 0]], atol=1e-3)] says of
    [x.rot]: it is one row of four components (the shapes must agree), a
    quaternion whose first component is within the single-precision
    tolerance 0.0010001001 of 1 and whose others are within 0.00100000005
    of 0, a little more than the 1e-3 that is written; the square of its
    norm is within 0.0021 of 1. *)
Theorem rot_assert_near_identity (rot : list (list Q)) :
  Testing.assert_allclose2 rot [Float32.array [1; 0; 0; 0]]
    Testing.rtol_default 1e-3 = true ->
  exists w x y z,
    rot = [[w; x; y; z]]
    /\ Qabs (w - 1) <= 0.0010001001
    /\ Qabs x <= 0.00100000005
    /\ Qabs y <= 0.00100000005
    /\ Qabs z <= 0.00100000005
    /\ Qabs (w * w + x * x + y * y + z * z - 1) <= 0.0021.
Proof.
  intros H.
  destruct (allclose_identity_row rot H) as (w & x & y & z & Hq & Hw & Hx & Hy & Hz).
  exists w, x, y, z. split; [exact Hq|].
  apply Qabs_Qle_condition in Hw, Hx, Hy, Hz.
  destruct Hw as [Hw1 Hw2], Hx as [Hx1 Hx2], Hy as [Hy1 Hy2], Hz as [Hz1 Hz2].
  repeat split; try (apply Qabs_Qle_condition; split; lra).
  apply Qabs_Qle_condition. split; nra.
Qed.

End RowFacts.

(** A quaternion a little off the identity passes the assertion, also
    with a component above the 1e-3 that is written. *)
Lemma rot_assert_near_identity_witness :
  Testing.assert_allclose2 [[1.0005; 0.00100000004; -0.0005; 0]]
    [Float32.array [1; 0; 0; 0]] Testing.rtol_default 1e-3 = true
  /\ exists w x y z,
       [[1.0005; 0.00100000004; -0.0005; 0]] = [[w; x; y; z]]
       /\ Qabs (w - 1) <= 0.0010001001
       /\ Qabs x <= 0.00100000005
       /\ Qabs y <= 0.00100000005
       /\ Qabs z <= 0.00100000005
       /\ Qabs (w * w + x * x + y * y + z * z - 1) <= 0.0021.
Proof.
  split; [vm_compute; reflexivity|].
  apply (rot_assert_near_identity [[1.0005; 0.00100000004; -0.0005; 0]]).
  vm_compute. reflexivity.
Defined.

Section ZerosFacts.

(** An array that is close to its [zeros_like] has every entry within
    the tolerance at 0. *)
Lemma assert_allclose2_zeros_like (a : list (list Q)) (rtol atol : Q)
    (row : list Q) (c : Q) :
  Testing.assert_allclose2 a (Numpy.zeros_like a) rtol atol = true ->
  row ∈ a -> c ∈ row -> Qabs c <= Testing.tolerance rtol atol 0.
Proof.
  intros H Hrow Hc. apply assert_allclose2_bound in H as [_ Hrows].
  apply list_elem_of_lookup in Hrow as [i Hi].
  apply list_elem_of_lookup in Hc as [j Hj].
  assert (Hzi : Numpy.zeros_like a !! i = Some (map (fun _ : Q => 0) row)).
  { unfold Numpy.zeros_like.
    change (map (map (fun _ : Q => 0)) a) with (map (fun _ : Q => 0) <$> a).
    rewrite list_lookup_fmap, Hi. reflexivity. }
  destruct (Hrows i row _ Hi Hzi) as [_ Hentries].
  assert (Hzj : map (fun _ : Q => 0) row !! j = Some 0).
  { change (map (fun _ : Q => 0) row) with ((fun _ : Q => 0) <$> row).
    rewrite list_lookup_fmap, Hj. reflexivity. }
  pose proof (Hentries j c 0 Hj Hzj) as Hle.
  assert (Hl : Qabs c == Qabs (c - 0)) by (apply Qabs_wd; ring).
  rewrite Hl. exact Hle.
Qed.

End ZerosFacts.

(** X6.  When [test_sliding_capsule] passes, the capsule launched at 5
    along its first degree of freedom has, after the 1000 steps, the z
    position of link 0 within 1e-2 of 0.25 and every linear and angular
    velocity component of every link within 1e-2 of zero; its
    orientation array is one row, a quaternion within the
    single-precision tolerance of the identity. *)
Theorem test_sliding_capsule_sound (B : PipelineTestSuite.Brax) :
  PipelineTestSuite.test_sliding_capsule B = true ->
  exists state z,
    PipelineTestSuite.capsule_final B = Some state
    /\ Base.at2 (Base.pos (Base.x state)) 0 2 = Some z
    /\ Qabs (z - 0.25) <= 1e-2
    /\ (forall row c, row ∈ Base.vel (Base.xd state) -> c ∈ row ->
          Qabs c <= 1e-2)
    /\ (forall row c, row ∈ Base.ang (Base.xd state) -> c ∈ row ->
          Qabs c <= 1e-2)
    /\ (exists w x y z',
          Base.rot (Base.x state) = [[w; x; y; z']]
          /\ Qabs (w - 1) <= 0.0010001001
          /\ Qabs x <= 0.00100000005
          /\ Qabs y <= 0.00100000005
          /\ Qabs z' <= 0.00100000005).
Proof.
  unfold PipelineTestSuite.test_sliding_capsule. intros H.
  destruct (PipelineTestSuite.capsule_final B) as [state|]; [|discriminate].
  simpl in H. unfold PipelineTestSuite.sliding_capsule_asserts in H.
  apply andb_prop in H as [H Hang]. apply andb_prop in H as [H Hvel].
  apply andb_prop in H as [Hz Hrot].
  destruct (Base.at2 (Base.pos (Base.x state)) 0 2) as [z|] eqn:Hat;
    [|discriminate].
  simpl in Hz. exists state, z.
  split; [reflexivity|]. split; [exact Hat|].
  assert (Htol : Testing.tolerance Testing.rtol_default 1e-2 0 <= 1e-2).
  { rewrite tolerance_1e2_at_0. change 1e-2 with 0.01. lra. }
  split; [|split; [|split]].
  - unfold Testing.assertAlmostEqual in Hz. rewrite quarter, delta_1e2 in Hz.
    change 1e-2 with 0.01.
    apply orb_prop in Hz as [Heq|Hle].
    + apply Qeq_bool_iff in Heq.
      apply Qabs_Qle_condition. split; lra.
    + apply Qle_bool_iff in Hle. apply Qabs_Qle_condition in Hle.
      apply Qabs_Qle_condition. split; lra.
  - intros row c Hrow Hc.
    eapply Qle_trans; [|exact Htol].
    exact (assert_allclose2_zeros_like _ _ _ row c Hvel Hrow Hc).
  - intros row c Hrow Hc.
    eapply Qle_trans; [|exact Htol].
    exact (assert_allclose2_zeros_like _ _ _ row c Hang Hrow Hc).
  - destruct (allclose_identity_row _ Hrot)
      as (w & x & y & z' & Hq & Hw & Hx & Hy & Hz').
    exists w, x, y, z'. split; [exact Hq|].
    apply Qabs_Qle_condition in Hw, Hx, Hy, Hz'.
    repeat split; apply Qabs_Qle_condition; split; lra.
Qed.

(** [test_sliding_capsule] passes on the pipeline double. *)
Lemma test_sliding_capsule_witness :
  PipelineTestSuite.test_sliding_capsule StubSuite.brax = true
  /\ exists state z,
    PipelineTestSuite.capsule_final StubSuite.brax = Some state
    /\ Base.at2 (Base.pos (Base.x state)) 0 2 = Some z
    /\ Qabs (z - 0.25) <= 1e-2
    /\ (forall row c, row ∈ Base.vel (Base.xd state) -> c ∈ row ->
          Qabs c <= 1e-2)
    /\ (forall row c, row ∈ Base.ang (Base.xd state) -> c ∈ row ->
          Qabs c <= 1e-2)
    /\ (exists w x y z',
          Base.rot (Base.x state) = [[w; x; y; z']]
          /\ Qabs (w - 1) <= 0.0010001001
          /\ Qabs x <= 0.00100000005
          /\ Qabs y <= 0.00100000005
          /\ Qabs z' <= 0.00100000005).
Proof.
  split; [vm_compute; reflexivity|].
  apply (test_sliding_capsule_sound StubSuite.brax).
  vm_compute. reflexivity.
Defined.

(** ** The limit tests *)

Section LimitTests.

Context {System : Type}.
Variable load_fixture : string -> System.
Variable tree_replace_timestep : System -> Q -> System.
Variable init_q : System -> list Q.
Variable qd_size : System -> nat.
Variable act_size : System -> nat.
Variable init : System -> list Q -> list Q -> option Base.State.
Variable step : System -> Base.State -> list Q -> option Base.State.

Local Abbreviation final :=
  (PipelineTest.launched_final load_fixture tree_replace_timestep init_q
     qd_size act_size init step).

(** X11.  When [test_3d_sliding_joint] passes, the launch, [init] and the
    1000 steps all returned, and in the state they end in the linear
    velocity of link 0 has three components, each below the
    single-precision value of -1.18 (so below -1.1799999: the body
    moves against the launch at more than that speed), its angular
    velocity has three components within the single-precision
    tolerance 1.00000002e-7 of zero, and the orientation array is one
    quaternion within tolerance of the identity.  Nothing bounds the
    speed from above. *)
Theorem test_3d_sliding_joint_sound :
  PipelineTest.test_3d_sliding_joint load_fixture tree_replace_timestep
    init_q qd_size act_size init step = true ->
  exists state vx vy vz wx wy wz,
    final "triple_prismatic.xml" = Some state
    /\ Base.vel (Base.xd state) !! 0%nat = Some [vx; vy; vz]
    /\ Base.ang (Base.xd state) !! 0%nat = Some [wx; wy; wz]
    /\ vx < -1.1799999 /\ vy < -1.1799999 /\ vz < -1.1799999
    /\ Qabs wx <= 0.000000100000002
    /\ Qabs wy <= 0.000000100000002
    /\ Qabs wz <= 0.000000100000002
    /\ exists w x y z,
         Base.rot (Base.x state) = [[w; x; y; z]]
         /\ Qabs (w - 1) <= 0.0010001001
         /\ Qabs x <= 0.00100000005
         /\ Qabs y <= 0.00100000005
         /\ Qabs z <= 0.00100000005.
Proof.
  unfold PipelineTest.test_3d_sliding_joint. intros H.
  destruct (final "triple_prismatic.xml") as [state|]; [|discriminate].
  simpl in H. unfold PipelineTest.sliding_joint_asserts in H.
  apply andb_prop in H as [H Hang]. apply andb_prop in H as [Hrot Hvel].
  destruct (Base.vel (Base.xd state) !! 0%nat) as [vel0|] eqn:Hv0;
    [|discriminate].
  destruct (Base.ang (Base.xd state) !! 0%nat) as [ang0|] eqn:Ha0;
    [|discriminate].
  cbn [from_option] in Hvel, Hang.
  rewrite bound_118_row3 in Hvel. rewrite zero_row in Hang.
  apply assert_array_less_bound in Hvel as [Hvlen Hvel].
  apply assert_allclose_bound in Hang as [Halen Hang].
  destruct vel0 as [|vx [|vy [|vz [|t vel0]]]]; try discriminate.
  destruct ang0 as [|wx [|wy [|wz [|t ang0]]]]; try discriminate.
  exists state, vx, vy, vz, wx, wy, wz.
  split; [reflexivity|]. split; [exact Hv0|]. split; [exact Ha0|].
  pose proof (Hvel 0%nat _ _ eq_refl eq_refl) as Hvx.
  pose proof (Hvel 1%nat _ _ eq_refl eq_refl) as Hvy.
  pose proof (Hvel 2%nat _ _ eq_refl eq_refl) as Hvz.
  pose proof (Hang 0%nat _ _ eq_refl eq_refl) as Hwx.
  pose proof (Hang 1%nat _ _ eq_refl eq_refl) as Hwy.
  pose proof (Hang 2%nat _ _ eq_refl eq_refl) as Hwz.
  rewrite tolerance_1e7_at_0 in Hwx, Hwy, Hwz.
  apply Qabs_Qle_condition in Hwx, Hwy, Hwz.
  split; [lra|]. split; [lra|]. split; [lra|].
  split; [apply Qabs_Qle_condition; split; lra|].
  split; [apply Qabs_Qle_condition; split; lra|].
  split; [apply Qabs_Qle_condition; split; lra|].
  destruct (allclose_identity_row _ Hrot)
    as (w & x & y & z & Hq & Hw & Hx & Hy & Hz).
  exists w, x, y, z. split; [exact Hq|].
  apply Qabs_Qle_condition in Hw, Hx, Hy, Hz.
  repeat split; apply Qabs_Qle_condition; split; lra.
Qed.

(** X12.  When [test_3d_prismaversal_joint] passes, the launch, [init]
    and the 1000 steps all returned, and in the state they end in the x
    and z velocity of link 0 are below the single-precision value of
    -1.18 and its angular velocity about y below that of -1.15. *)
Theorem test_3d_prismaversal_joint_sound :
  PipelineTest.test_3d_prismaversal_joint load_fixture tree_replace_timestep
    init_q qd_size act_size init step = true ->
  exists state vx vz wy,
    final "prismaversal_3dof_joint.xml" = Some state
    /\ Base.at2 (Base.vel (Base.xd state)) 0 0 = Some vx
    /\ Base.at2 (Base.vel (Base.xd state)) 0 2 = Some vz
    /\ Base.at2 (Base.ang (Base.xd state)) 0 1 = Some wy
    /\ vx < -1.1799999 /\ vz < -1.1799999 /\ wy < -1.1499999.
Proof.
  unfold PipelineTest.test_3d_prismaversal_joint. intros H.
  destruct (final "prismaversal_3dof_joint.xml") as [state|]; [|discriminate].
  simpl in H. unfold PipelineTest.prismaversal_joint_asserts in H.
  apply andb_prop in H as [Hvel Hang].
  destruct (Base.at2 (Base.vel (Base.xd state)) 0 0) as [vx|] eqn:Hx;
    [|discriminate].
  destruct (Base.at2 (Base.vel (Base.xd state)) 0 2) as [vz|] eqn:Hz;
    [|discriminate].
  destruct (Base.at2 (Base.ang (Base.xd state)) 0 1) as [wy|] eqn:Hy;
    [|discriminate].
  cbn [from_option] in Hvel, Hang.
  rewrite bound_118_row2 in Hvel. rewrite bound_115_row1 in Hang.
  apply assert_array_less_bound in Hvel as [_ Hvel].
  apply assert_array_less_bound in Hang as [_ Hang].
  pose proof (Hvel 0%nat _ _ eq_refl eq_refl) as Hvx.
  pose proof (Hvel 1%nat _ _ eq_refl eq_refl) as Hvz.
  pose proof (Hang 0%nat _ _ eq_refl eq_refl) as Hwy.
  exists state, vx, vz, wy.
  split; [reflexivity|]. split; [exact Hx|]. split; [exact Hz|].
  split; [exact Hy|]. split; [lra|]. split; lra.
Qed.

End LimitTests.

(** [test_3d_sliding_joint] passes on the pipeline double. *)
Lemma test_3d_sliding_joint_witness :
  PipelineTest.test_3d_sliding_joint Stub.load_fixture
    Stub.tree_replace_timestep Stub.init_q Stub.qd_size Stub.act_size
    Stub.init Stub.step = true
  /\ exists state vx vy vz wx wy wz,
    PipelineTest.launched_final Stub.load_fixture
      Stub.tree_replace_timestep Stub.init_q Stub.qd_size Stub.act_size
      Stub.init Stub.step "triple_prismatic.xml" = Some state
    /\ Base.vel (Base.xd state) !! 0%nat = Some [vx; vy; vz]
    /\ Base.ang (Base.xd state) !! 0%nat = Some [wx; wy; wz]
    /\ vx < -1.1799999 /\ vy < -1.1799999 /\ vz < -1.1799999
    /\ Qabs wx <= 0.000000100000002
    /\ Qabs wy <= 0.000000100000002
    /\ Qabs wz <= 0.000000100000002
    /\ exists w x y z,
         Base.rot (Base.x state) = [[w; x; y; z]]
         /\ Qabs (w - 1) <= 0.0010001001
         /\ Qabs x <= 0.00100000005
         /\ Qabs y <= 0.00100000005
         /\ Qabs z <= 0.00100000005.
Proof.
  split; [vm_compute; reflexivity|].
  apply (test_3d_sliding_joint_sound Stub.load_fixture
           Stub.tree_replace_timestep Stub.init_q Stub.qd_size
           Stub.act_size Stub.init Stub.step).
  vm_compute. reflexivity.
Defined.

(** [test_3d_prismaversal_joint] passes on the pipeline double. *)
Lemma test_3d_prismaversal_joint_witness :
  PipelineTest.test_3d_prismaversal_joint Stub.load_fixture
    Stub.tree_replace_timestep Stub.init_q Stub.qd_size Stub.act_size
    Stub.init Stub.step = true
  /\ exists state vx vz wy,
    PipelineTest.launched_final Stub.load_fixture
      Stub.tree_replace_timestep Stub.init_q Stub.qd_size Stub.act_size
      Stub.init Stub.step "prismaversal_3dof_joint.xml" = Some state
    /\ Base.at2 (Base.vel (Base.xd state)) 0 0 = Some vx
    /\ Base.at2 (Base.vel (Base.xd state)) 0 2 = Some vz
    /\ Base.at2 (Base.ang (Base.xd state)) 0 1 = Some wy
    /\ vx < -1.1799999 /\ vz < -1.1799999 /\ wy < -1.1499999.
Proof.
  split; [vm_compute; reflexivity|].
  apply (test_3d_prismaversal_joint_sound Stub.load_fixture
           Stub.tree_replace_timestep Stub.init_q Stub.qd_size
           Stub.act_size Stub.init Stub.step).
  vm_compute. reflexivity.
Defined.

(** ** The definitions at work *)

(** Rounding to single precision moves 1e-3 and 1e-7 up and 1e-2 and
    2e-2 down. *)
Example tolerances_rounded :
  1e-3 < Float32.of_float 1e-3 /\ 1e-7 < Float32.of_float 1e-7
  /\ Float32.of_float 1e-2 < 1e-2 /\ Float32.of_float 2e-2 < 2e-2.
Proof. repeat split; vm_compute; reflexivity. Qed.

(** Rounding goes to the nearest number of 24 bits, and to the even one
    of two that are as near. *)
Example rounding_ties_to_even :
  Float32.f32 (16777217 # 1) = 16777216 # 1
  /\ Float32.f32 (16777219 # 1) = 16777220 # 1
  /\ Float32.f32 (1 # 3) = 11184811 # 33554432
  /\ Float32.f32 2.5 = 5 # 2.
Proof. repeat split; vm_compute; reflexivity. Qed.

(** [assert_array_less] is strict, and refuses arrays of two shapes. *)
Example assert_array_less_is_strict :
  Testing.assert_array_less [-2; -2; -2] [-2; -1; -1] = false
  /\ Testing.assert_array_less [-2; -2; -2] [-1; -1; -1] = true
  /\ Testing.assert_array_less [-2] [-1; -1; -1] = false.
Proof. repeat split. Qed.

(** A body that came back at the launch speed would pass the
    sliding-joint assertions as well: they bound the rebound from below
    only. *)
Example sliding_joint_asserts_accept_full_speed :
  PipelineTest.sliding_joint_asserts
    {| Base.q := []; Base.qd := [];
       Base.x := {| Base.pos := [[0; 0; 0]]; Base.rot := [[1; 0; 0; 0]] |};
       Base.xd := {| Base.ang := [[0; 0; 0]];
                     Base.vel := [[-2.5; -2.5; -2.5]] |};
       Base.xd_i := {| Base.ang := []; Base.vel := [] |} |} = true.
Proof. vm_compute. reflexivity. Qed.

(** The launch on systems of no, two, three and four degrees of
    freedom. *)
Example launch_qd_values :
  PipelineTest.launch_qd (fun _ : unit => 0%nat) tt = None
  /\ PipelineTest.launch_qd (fun _ : unit => 2%nat) tt = Some [2.5; 2.5]
  /\ PipelineTest.launch_qd (fun _ : unit => 3%nat) tt = Some [2.5; 2.5; 2.5]
  /\ PipelineTest.launch_qd (fun _ : unit => 4%nat) tt
     = Some [2.5; 2.5; 2.5; 0].
Proof. repeat split. Qed.

(** ** Differences and norms *)

Section NormFacts.

Lemma sum_squares_nonneg (v : list Q) : 0 <= Numpy.sum_squares v.
Proof.
  induction v as [|d v IH]; simpl; [apply Qle_refl|].
  assert (0 <= d * d) by nra. lra.
Qed.



Lemma Q2R_zero : Q2R 0 = 0%R.
Proof. unfold Q2R. simpl. Lra.lra. Qed.

(** The comparison of squares is the comparison of the norm, computed
    with the square root of the reals. *)
Lemma norm_less_sqrt (a : list (list Q)) (c : Q) :
  Numpy.norm_less a c = true
  <-> (sqrt (Q2R (Numpy.sum_squares (concat a))) < Q2R c)%R.
Proof.
  unfold Numpy.norm_less. rewrite andb_true_iff, !Qltb_lt.
  pose proof (sum_squares_nonneg (concat a)) as Hs. apply Qle_Rle in Hs.
  rewrite Q2R_zero in Hs.
  split.
  - intros [Hc Hlt]. apply Qlt_Rlt in Hc, Hlt.
    rewrite Q2R_zero in Hc. rewrite Q2R_mult in Hlt.
    rewrite <- (sqrt_square (Q2R c)) by Lra.lra.
    apply sqrt_lt_1_alt. split; [Lra.lra|exact Hlt].
  - intros H.
    assert (Hc : (0 < Q2R c)%R).
    { pose proof (sqrt_pos (Q2R (Numpy.sum_squares (concat a)))). Lra.lra. }
    split.
    + apply Rlt_Qlt. rewrite Q2R_zero. exact Hc.
    + apply Rlt_Qlt. rewrite Q2R_mult.
      rewrite <- (sqrt_square (Q2R c)) in H by Lra.lra.
      apply sqrt_lt_0_alt in H. exact H.
Qed.


End NormFacts.





(** ** What [test_spherical_pendulum] takes from [pipeline.init] *)

(** X9.  The test replaces [xd] and [xd_i] of the state that [pipeline.init]
    returns before the first step.  So an [init] that returns the same
    [q], [qd] and [x] for the arguments of the test, whatever its
    velocities, starts the two pipelines from the same states and gives
    the test the same outcome. *)
Theorem spherical_test_ignores_init_velocities (B : PipelineTestSuite.Brax)
    (init' : PipelineTestSuite.System B -> list Q -> list Q
             -> option Base.State) :
  (fun state => (Base.q state, Base.qd state, Base.x state))
    <$> init' (PipelineTestSuite.spherical_sys B)
          PipelineTestSuite.spherical_init_q
          (PipelineTestSuite.spherical_init_qd B)
  = (fun state => (Base.q state, Base.qd state, Base.x state))
      <$> PipelineTestSuite.init B (PipelineTestSuite.spherical_sys B)
            PipelineTestSuite.spherical_init_q
            (PipelineTestSuite.spherical_init_qd B) ->
  PipelineTestSuite.spherical_start (PipelineTestSuite.with_init B init')
  = PipelineTestSuite.spherical_start B
  /\ PipelineTestSuite.test_spherical_pendulum
       (PipelineTestSuite.with_init B init')
     = PipelineTestSuite.test_spherical_pendulum B.
Proof.
  intros Hkey.
  assert (Hstart :
    PipelineTestSuite.spherical_start (PipelineTestSuite.with_init B init')
    = PipelineTestSuite.spherical_start B).
  { unfold PipelineTestSuite.spherical_start.
    change (PipelineTestSuite.init (PipelineTestSuite.with_init B init')
              (PipelineTestSuite.spherical_sys
                 (PipelineTestSuite.with_init B init'))
              PipelineTestSuite.spherical_init_q
              (PipelineTestSuite.spherical_init_qd
                 (PipelineTestSuite.with_init B init')))
      with (init' (PipelineTestSuite.spherical_sys B)
              PipelineTestSuite.spherical_init_q
              (PipelineTestSuite.spherical_init_qd B)).
    destruct (init' _ _ _) as [[q' qd' x' xd' xd_i']|];
      destruct (PipelineTestSuite.init B _ _ _) as [[q0 qd0 x0 xd0 xd_i0]|];
      simpl in Hkey; try discriminate; [|reflexivity].
    injection Hkey as -> -> ->. reflexivity. }
  split; [exact Hstart|].
  unfold PipelineTestSuite.test_spherical_pendulum,
    PipelineTestSuite.spherical_rots.
  rewrite Hstart. reflexivity.
Qed.

(** An [init] with other velocities than the double's changes nothing
    for the test. *)
Lemma spherical_test_ignores_init_velocities_witness :
  (fun state => (Base.q state, Base.qd state, Base.x state))
    <$> StubSuite.init_other_xd
          (PipelineTestSuite.spherical_sys StubSuite.brax)
          PipelineTestSuite.spherical_init_q
          (PipelineTestSuite.spherical_init_qd StubSuite.brax)
  = (fun state => (Base.q state, Base.qd state, Base.x state))
      <$> PipelineTestSuite.init StubSuite.brax
            (PipelineTestSuite.spherical_sys StubSuite.brax)
            PipelineTestSuite.spherical_init_q
            (PipelineTestSuite.spherical_init_qd StubSuite.brax)
  /\ StubSuite.init_other_xd
       (PipelineTestSuite.spherical_sys StubSuite.brax)
       PipelineTestSuite.spherical_init_q
       (PipelineTestSuite.spherical_init_qd StubSuite.brax)
     <> PipelineTestSuite.init StubSuite.brax
          (PipelineTestSuite.spherical_sys StubSuite.brax)
          PipelineTestSuite.spherical_init_q
          (PipelineTestSuite.spherical_init_qd StubSuite.brax)
  /\ PipelineTestSuite.spherical_start
       (PipelineTestSuite.with_init StubSuite.brax StubSuite.init_other_xd)
     = PipelineTestSuite.spherical_start StubSuite.brax
  /\ PipelineTestSuite.test_spherical_pendulum
       (PipelineTestSuite.with_init StubSuite.brax StubSuite.init_other_xd)
     = PipelineTestSuite.test_spherical_pendulum StubSuite.brax.
Proof.
  split; [vm_compute; reflexivity|].
  split; [vm_compute; discriminate|].
  apply (spherical_test_ignores_init_velocities StubSuite.brax
           StubSuite.init_other_xd).
  vm_compute. reflexivity.
Defined.

(** ** What the policy takes from its parameters *)

Section PolicyFacts.

Context {Param Observation Logits Action PRNGKey ExtraValue : Type}.

(** X10.  The policy reads the parameters and the observations through the
    logits of the network only: where two calls have the same logits,
    they return the same action for the same key, in either mode; and
    the extras are empty in either mode. *)
Theorem policy_reads_logits_only
    (es_networks : ES.ESNetworks Param Observation Logits Action PRNGKey)
    (params params' : ES.PolicyParams) (observations observations' : Observation)
    (deterministic : bool) (key_sample : PRNGKey) :
  ES.apply (ES.policy_network es_networks) params observations
  = ES.apply (ES.policy_network es_networks) params' observations' ->
  ES.make_inference_fn (ExtraValue := ExtraValue) es_networks params
    deterministic observations key_sample
  = ES.make_inference_fn es_networks params' deterministic observations'
      key_sample
  /\ snd (ES.make_inference_fn (ExtraValue := ExtraValue) es_networks params
            deterministic observations key_sample) = ∅.
Proof.
  intros Hlogits.
  unfold ES.make_inference_fn, ES.make_policy, ES.policy.
  rewrite Hlogits. destruct deterministic; split; reflexivity.
Qed.

End PolicyFacts.

(** A network that ignores its parameters gives one policy for all of
    them. *)
Lemma policy_reads_logits_only_witness :
  ES.apply (ES.policy_network ESDouble.doubling) [1%nat] 5%nat
  = ES.apply (ES.policy_network ESDouble.doubling) [2%nat; 3%nat] 5%nat
  /\ ES.make_inference_fn (ExtraValue := nat) ESDouble.doubling [1%nat] false
       5%nat 7%nat
     = ES.make_inference_fn ESDouble.doubling [2%nat; 3%nat] false 5%nat 7%nat
  /\ snd (ES.make_inference_fn (ExtraValue := nat) ESDouble.doubling [1%nat]
            false 5%nat 7%nat) = ∅.
Proof.
  split; [reflexivity|].
  apply (policy_reads_logits_only ESDouble.doubling [1%nat] [2%nat; 3%nat]
           5%nat 5%nat false 7%nat).
  reflexivity.
Defined.
